(** * prefect_slack.credentials: credential and webhook holders

    A shallow embedding of [prefect_slack/credentials.py] and the properties
    its specification states about it.

    The Python code is embedded over an explicit object store: every object
    (holder or client handle) lives at an address, constructors allocate,
    methods receive the address of [self].  Effects are threaded through a
    state-and-exception monad [Py]: the store, the log of calls made to the
    external client library, and the number of suspension points passed. *)

From Stdlib Require Import ZArith.
From stdpp Require Import base option list strings gmap.

Local Open Scope string_scope.
Local Open Scope list_scope.

(** ** Values *)

(** [pydantic.SecretStr]: the raw value is reachable only through
    [get_secret_value]. *)
Record SecretStr := Secret { get_secret_value : string }.

(** Object identity. *)
Definition addr := nat.

(** The Python values an attribute lookup on a holder can produce. *)
Inductive pyval :=
| PyNone
| PyBool (b : bool)
| PyInt (n : Z)
| PyStr (s : string)
| PySecret (s : SecretStr)
| PyBoundMethod (self : addr) (name : string).

(** Python truth value testing ([if v:]).  A bound method defines neither
    [__bool__] nor [__len__], so it is true. *)
Definition truthy (v : pyval) : bool :=
  match v with
  | PyNone => false
  | PyBool b => b
  | PyInt n => negb (n =? 0)%Z
  | PyStr s => negb (bool_decide (s = ""))
  | PySecret s => negb (bool_decide (get_secret_value s = ""))
  | PyBoundMethod _ _ => true
  end.

(** ** Strings *)

(** A string is a sequence of characters with code points below 256.
    [isspace] is Python's [str.isspace] on one such character: the
    characters the Unicode database classes as whitespace (TAB to CR, FS to
    US, SPACE, NEL and NO-BREAK SPACE). *)
Definition isspace (c : Ascii.ascii) : bool :=
  let n := Ascii.nat_of_ascii c in
  bool_decide (9 ≤ n ≤ 13 ∨ 28 ≤ n ≤ 32 ∨ n = 133 ∨ n = 160)%nat.

(** [str.lstrip()], [str.rstrip()] and [str.strip()] without argument. *)
Fixpoint lstrip (s : string) : string :=
  match s with
  | EmptyString => EmptyString
  | String c s' => if isspace c then lstrip s' else s
  end.

Fixpoint rstrip (s : string) : string :=
  match s with
  | EmptyString => EmptyString
  | String c s' =>
      match rstrip s' with
      | EmptyString => if isspace c then EmptyString else String c EmptyString
      | r => String c r
      end
  end.

Definition strip (s : string) : string := rstrip (lstrip s).



(** ** Objects *)

(** The classes of this file ([SlackCredentials], [SlackWebhook]) and the
    client handles of [slack_sdk] they construct.  A client handle is
    recorded in the store by the argument its constructor was called with;
    the attributes it then keeps are given by [instance_dict].

    A webhook holder carries, besides its declared field [url], the private
    attributes the host framework keeps for the block ([host_private]).
    That store belongs to the host ([prefect.blocks], on top of pydantic) and
    is not part of this file: its content is arbitrary here.  It is separate
    from the instance dictionary, which holds the declared fields only, and
    it is reached by attribute lookup only after ordinary lookup (instance
    dictionary, then class) has failed. *)
Inductive object :=
| OSlackCredentials (token : SecretStr)
| OSlackWebhook (url : SecretStr) (host_private : gmap string pyval)
| OAsyncWebClient (token : string)
| OAsyncWebhookClient (url : string)
| OWebhookClient (url : string).

(** The instance dictionary: the declared fields of a holder; for a client
    handle, the credential it keeps.  The constructor of [AsyncWebClient]
    (in [slack_sdk], outside this file) keeps [token.strip()], not the
    argument itself; the webhook clients keep their URL as given. *)
Definition instance_dict (o : object) : gmap string pyval :=
  match o with
  | OSlackCredentials token => {[ "token" := PySecret token ]}
  | OSlackWebhook url _ => {[ "url" := PySecret url ]}
  | OAsyncWebClient token => {[ "token" := PyStr (strip token) ]}
  | OAsyncWebhookClient url => {[ "url" := PyStr url ]}
  | OWebhookClient url => {[ "url" := PyStr url ]}
  end.

(** The functions defined in the class body (lines 46, 102, 113, 126, 133).
    The client classes are external; only [send] is used on them. *)
Definition class_body (o : object) : list string :=
  match o with
  | OSlackCredentials _ => ["get_client"]
  | OSlackWebhook _ _ =>
      ["get_client"; "_raise_on_failure"; "notify_async"; "notify"]
  | OAsyncWebClient _ => []
  | OAsyncWebhookClient _ => ["send"]
  | OWebhookClient _ => ["send"]
  end.

(** What the host stores privately for the object. *)
Definition private_store (o : object) : gmap string pyval :=
  match o with
  | OSlackWebhook _ host_private => host_private
  | _ => ∅
  end.

(** Attribute resolution on an object at address [self], with the default of
    Python's three-argument [getattr].  A function of the class body is a
    non-data descriptor of the most derived class: the instance dictionary
    comes before it, and it comes before whatever a base class defines under
    the same name and before the fallback through which the host serves its
    private attributes.  The default is used when nothing is found. *)
Definition resolve (self : addr) (o : object) (name : string)
    (dflt : pyval) : pyval :=
  match instance_dict o !! name with
  | Some v => v
  | None =>
      if bool_decide (name ∈ class_body o) then PyBoundMethod self name
      else match private_store o !! name with
           | Some v => v
           | None => dflt
           end
  end.

(** ** The external client library *)

(** [send(text) -> outcome{status_code, body}] *)
Record WebhookResponse := Response { status_code : Z; body : string }.

Inductive client_kind := Blocking | Suspending.

(** One call of a handle's [send]: which client variant, the URL the handle
    is bound to, and the keyword arguments passed. *)
Record send_call := SendCall {
  variant : client_kind;
  target : string;
  kwargs : list (string * string)
}.

(** ** Exceptions *)

Inductive exn_class :=
| NotificationError      (* prefect.blocks.abstract.NotificationError *)
| Exception              (* the builtin *)
| AttributeError
| ReferenceError
| TransportError (name : string).  (* raised inside the client library *)

Record exn := Exn { exn_type : exn_class; exn_msg : string }.

(** ** The host *)

(** What the surrounding installation supplies: the (stubbed) transport
    behind [send], which answers with a response or raises, and whether
    [from prefect.blocks.abstract import NotificationError] succeeds. *)
Record Host := {
  send_stub : send_call → WebhookResponse + exn;
  NotificationError_importable : bool
}.

(** ** The world and the monad *)

Record world := World {
  heap : list object;       (* address = position; allocation appends *)
  sent : list send_call;    (* calls that reached the client library *)
  suspensions : nat         (* [await] expressions evaluated *)
}.

Inductive outcome (A : Type) :=
| Returned (a : A)
| Raised (e : exn).
Arguments Returned {A} a.
Arguments Raised {A} e.

Definition Py (A : Type) : Type := world → outcome A * world.

#[global] Instance Py_ret : MRet Py := λ A a w, (Returned a, w).

#[global] Instance Py_bind : MBind Py := λ A B k m w,
  match m w with
  | (Returned a, w') => k a w'
  | (Raised e, w') => (Raised e, w')
  end.

Definition raise {A} (e : exn) : Py A := λ w, (Raised e, w).

(** Object construction: a new object at a fresh address. *)
Definition alloc (o : object) : Py addr := λ w,
  (Returned (length (heap w)),
   {| heap := heap w ++ [o]; sent := sent w; suspensions := suspensions w |}).

(** Following a reference. *)
Definition deref (a : addr) : Py object := λ w,
  match heap w !! a with
  | Some o => (Returned o, w)
  | None => (Raised (Exn ReferenceError "no such object"), w)
  end.

(** [getattr(self, name, default)] *)
Definition getattr (self : addr) (name : string) (dflt : pyval) : Py pyval :=
  o ← deref self;
  mret (resolve self o name dflt).

(** [await m]: [m] is run to its result, and the counter records that an
    [await] expression was evaluated; whether the scheduler switches tasks
    there depends on what is awaited.  No state of this component is shared
    with other tasks, so what the scheduler runs in between is not part of
    the world. *)
Definition await {A} (m : Py A) : Py A := λ w,
  m {| heap := heap w; sent := sent w; suspensions := S (suspensions w) |}.

Section Program.

Variable host : Host.

(** What happens behind [send]: the call reaches the client library, which
    answers with a response or raises. *)
Definition transport (c : send_call) : Py WebhookResponse := λ w,
  (match send_stub host c with
   | inl r => Returned r
   | inr e => Raised e
   end,
   {| heap := heap w; sent := sent w ++ [c]; suspensions := suspensions w |}).

(** [client.send] with keyword arguments [kw], on a webhook client handle of
    either variant. *)
Definition send (client : addr) (kw : list (string * string))
  : Py WebhookResponse :=
  o ← deref client;
  match o with
  | OWebhookClient url =>
      transport {| variant := Blocking; target := url; kwargs := kw |}
  | OAsyncWebhookClient url =>
      transport {| variant := Suspending; target := url; kwargs := kw |}
  | _ => raise (Exn AttributeError "send")
  end.

(** *** class SlackCredentials *)

(** [SlackCredentials.get_client] (line 46) *)
Definition SlackCredentials_get_client (self : addr) : Py addr :=
  o ← deref self;
  match o with
  | OSlackCredentials token => alloc (OAsyncWebClient (get_secret_value token))
  | _ => raise (Exn AttributeError "token")
  end.

(** *** class SlackWebhook *)

(** [SlackWebhook.get_client] (line 102); [None] is the omitted argument. *)
Definition SlackWebhook_get_client (self : addr) (sync_client : option bool)
  : Py addr :=
  let sync_client := default false sync_client in
  o ← deref self;
  match o with
  | OSlackWebhook url _ =>
      if sync_client then alloc (OWebhookClient (get_secret_value url))
      else alloc (OAsyncWebhookClient (get_secret_value url))
  | _ => raise (Exn AttributeError "url")
  end.

(** [SlackWebhook._raise_on_failure] (line 113) *)
Definition SlackWebhook__raise_on_failure (self : addr)
    (response : WebhookResponse) : Py unit :=
  probe ← getattr self "_raise_on_failure" (PyBool false);
  if truthy probe then
    let NotificationError :=
      if NotificationError_importable host then NotificationError
      else Exception in
    if (status_code response >=? 400)%Z then
      raise (Exn NotificationError
                 ("Failed to send message: " +:+ body response))
    else mret tt
  else mret tt.

(** *** Method calls on [obj : Any] *)

(** [obj.get_client()] and [obj._raise_on_failure(response)] in
    [_notify_async] are resolved on the class of [obj]. *)
Definition invoke_get_client (obj : addr) : Py addr :=
  o ← deref obj;
  match o with
  | OSlackCredentials _ => SlackCredentials_get_client obj
  | OSlackWebhook _ _ => SlackWebhook_get_client obj None
  | _ => raise (Exn AttributeError "get_client")
  end.

Definition invoke__raise_on_failure (obj : addr) (response : WebhookResponse)
  : Py unit :=
  o ← deref obj;
  match o with
  | OSlackWebhook _ _ => SlackWebhook__raise_on_failure obj response
  | _ => raise (Exn AttributeError "_raise_on_failure")
  end.

(** [_notify_async] (line 53) *)
Definition _notify_async (obj : addr) (body : string)
    (subject : option string) : Py unit :=
  client ← invoke_get_client obj;
  response ← await (send client [("text", body)]);
  invoke__raise_on_failure obj response.

(** [SlackWebhook.notify_async] (line 126) *)
Definition SlackWebhook_notify_async (self : addr) (body : string)
    (subject : option string) : Py unit :=
  await (_notify_async self body subject).

(** The body of [SlackWebhook.notify] (line 133), before decoration. *)
Definition SlackWebhook_notify__wrapped (self : addr) (body : string)
    (subject : option string) : Py unit :=
  client ← SlackWebhook_get_client self (Some true);
  response ← send client [("text", body)];
  SlackWebhook__raise_on_failure self response.

(** Modelled from the spec: the decorator [async_dispatch] of
    [prefect._internal.compatibility.async_dispatch], which is not part of
    this file.  "When invoked from within a context that already supports
    suspension-based execution, the operation transparently executes its
    non-blocking code path instead of the blocking one." *)
Definition async_dispatch {A} (async_impl sync_fn : A) (in_async_context : bool)
  : A :=
  if in_async_context then async_impl else sync_fn.

(** [SlackWebhook.notify] (line 132), as decorated: in a suspension-capable
    context the call yields the coroutine of [_notify_async], which the
    caller runs. *)
Definition SlackWebhook_notify (in_async_context : bool)
  : addr → string → option string → Py unit :=
  async_dispatch _notify_async SlackWebhook_notify__wrapped in_async_context.

End Program.

(** ** Entry points and expected effects *)

(** The ways a caller reaches the notification: [notify] from a blocking
    or from a suspension-capable context, or [notify_async] directly. *)
Inductive entry :=
| ViaNotify (in_async_context : bool)
| ViaNotifyAsync.

Definition run_notify (host : Host) (e : entry)
  : addr → string → option string → Py unit :=
  match e with
  | ViaNotify ctx => SlackWebhook_notify host ctx
  | ViaNotifyAsync => SlackWebhook_notify_async host
  end.

(** The client variant an entry point is served by. *)
Definition client_variant (e : entry) : client_kind :=
  match e with
  | ViaNotify false => Blocking
  | _ => Suspending
  end.

(** The suspension points an entry point passes. *)
Definition awaits_of (e : entry) : nat :=
  match e with
  | ViaNotify false => 0
  | ViaNotify true => 1
  | ViaNotifyAsync => 2
  end.

(** The webhook handle of a variant, bound to a URL. *)
Definition handle_of (k : client_kind) (u : string) : object :=
  match k with
  | Blocking => OWebhookClient u
  | Suspending => OAsyncWebhookClient u
  end.

(** The call [send(text=t)] on a handle of variant [k] bound to [url]. *)
Definition text_call (k : client_kind) (url : SecretStr) (t : string)
  : send_call :=
  {| variant := k; target := get_secret_value url; kwargs := [("text", t)] |}.

(** The exception class the host makes [_raise_on_failure] use. *)
Definition failure_class (host : Host) : exn_class :=
  if NotificationError_importable host then NotificationError else Exception.

(** The outcome of a notification once the transport has answered. *)
Definition verdict (host : Host) (answer : WebhookResponse + exn)
  : outcome unit :=
  match answer with
  | inl r =>
      if (status_code r >=? 400)%Z
      then Raised (Exn (failure_class host)
                       ("Failed to send message: " +:+ body r))
      else Returned tt
  | inr e => Raised e
  end.

(** The world a notification leaves behind. *)
Definition world_after (e : entry) (url : SecretStr) (text : string)
    (w : world) : world :=
  {| heap := heap w ++
             [handle_of (client_variant e) (get_secret_value url)];
     sent := sent w ++ [text_call (client_variant e) url text];
     suspensions := awaits_of e + suspensions w |}.

(** Whether the host asks for failures to be surfaced: the value of the
    flag it keeps for the holder, false when it keeps none. *)
Definition wants_failure_surfacing (o : object) : bool :=
  match private_store o !! "_raise_on_failure" with
  | Some v => truthy v
  | None => false
  end.

(** ** Calls of the public operations *)

(** One call of a public operation, on whatever object the caller names. *)
Inductive call :=
| CredentialsGetClient (self : addr)
| WebhookGetClient (self : addr) (sync_client : option bool)
| WebhookNotify (e : entry) (self : addr) (body : string)
    (subject : option string).

(** The world after a call; whether it returned or raised is the caller's
    to handle. *)
Definition perform (host : Host) (c : call) (w : world) : world :=
  match c with
  | CredentialsGetClient self => snd (SlackCredentials_get_client self w)
  | WebhookGetClient self sync_client =>
      snd (SlackWebhook_get_client self sync_client w)
  | WebhookNotify e self body subject =>
      snd (run_notify host e self body subject w)
  end.

Definition perform_all (host : Host) (cs : list call) (w : world) : world :=
  foldl (λ w c, perform host c w) w cs.

(** A computation only adds to the store: what was allocated before it is
    still there afterwards, at the same address and with the same content. *)
Definition grows_only {A} (m : Py A) : Prop :=
  ∀ w, heap w `prefix_of` heap (snd (m w)).

(** ** Call sequences *)

(** A call is made on an object of the class that defines the method. *)
Definition well_targeted (w : world) (c : call) : bool :=
  match c with
  | CredentialsGetClient self =>
      match heap w !! self with
      | Some (OSlackCredentials _) => true
      | _ => false
      end
  | WebhookGetClient self _ | WebhookNotify _ self _ _ =>
      match heap w !! self with
      | Some (OSlackWebhook _ _) => true
      | _ => false
      end
  end.

(** The handle a call constructs, read off the store [w]. *)
Definition constructs (w : world) (c : call) : list object :=
  match c with
  | CredentialsGetClient self =>
      match heap w !! self with
      | Some (OSlackCredentials token) =>
          [OAsyncWebClient (get_secret_value token)]
      | _ => []
      end
  | WebhookGetClient self sync_client =>
      match heap w !! self with
      | Some (OSlackWebhook url _) =>
          [handle_of (if default false sync_client then Blocking
                      else Suspending) (get_secret_value url)]
      | _ => []
      end
  | WebhookNotify e self _ _ =>
      match heap w !! self with
      | Some (OSlackWebhook url _) =>
          [handle_of (client_variant e) (get_secret_value url)]
      | _ => []
      end
  end.

(** The call to [send] a call of a public operation makes, read off the
    store [w]: none for [get_client], one for [notify]. *)
Definition transmits (w : world) (c : call) : list send_call :=
  match c with
  | WebhookNotify e self body _ =>
      match heap w !! self with
      | Some (OSlackWebhook url _) => [text_call (client_variant e) url body]
      | _ => []
      end
  | _ => []
  end.

(** ** Example installations *)

Definition hook_url : SecretStr := Secret "https://hooks.slack.com/XXX".
Definition bot_token : SecretStr := Secret "xoxb-1234".

(** A host that predates failure surfacing: no flag is kept, and
    [NotificationError] cannot be imported. *)
Definition older_host (answer : WebhookResponse + exn) : Host :=
  {| send_stub := λ _, answer; NotificationError_importable := false |}.

(** A host with failure surfacing. *)
Definition current_host (answer : WebhookResponse + exn) : Host :=
  {| send_stub := λ _, answer; NotificationError_importable := true |}.

(** A store holding one credential holder (address 0) and one webhook holder
    (address 1) for which the host keeps the private attributes [p]. *)
Definition store_with (p : gmap string pyval) : world :=
  {| heap := [OSlackCredentials bot_token; OSlackWebhook hook_url p];
     sent := []; suspensions := 0 |}.

(** A store holding a webhook holder and nothing else. *)
Definition hook_only_store : world :=
  {| heap := [OSlackWebhook hook_url {[ "_raise_on_failure" := PyBool true ]}];
     sent := []; suspensions := 0 |}.

Definition flag_absent : gmap string pyval := ∅.
Definition flag_off : gmap string pyval :=
  {[ "_raise_on_failure" := PyBool false ]}.
Definition flag_on : gmap string pyval :=
  {[ "_raise_on_failure" := PyBool true ]}.

(** ** Proof steps *)

(** Allocations in a row: the addresses were free, they differ, and the new
    objects, like everything older, are in the final store. *)
Ltac fresh_pair :=
  repeat match goal with
    | |- _ ∧ _ => split
    | |- ?l !! length ?l = None => apply lookup_ge_None; lia
    | |- length ?l ≠ length (?l ++ [_]) => rewrite length_app; cbn; lia
    | |- (?l ++ [_]) !! length ?l = Some _ =>
        apply list_lookup_middle; reflexivity
    | |- (_ ++ [_]) !! _ = Some _ => apply lookup_app_l_Some
    end.

(** * Running the code *)

(** ** The monad *)

Lemma bind_Returned {A B} (m : Py A) (k : A → Py B) w a w' :
  m w = (Returned a, w') → (m ≫= k) w = k a w'.
Proof. intros Hm. unfold mbind, Py_bind. by rewrite Hm. Qed.

Lemma bind_Raised {A B} (m : Py A) (k : A → Py B) w e w' :
  m w = (Raised e, w') → (m ≫= k) w = (Raised e, w').
Proof. intros Hm. unfold mbind, Py_bind. by rewrite Hm. Qed.

Lemma deref_Some a o w : heap w !! a = Some o → deref a w = (Returned o, w).
Proof. intros Hw. unfold deref. by rewrite Hw. Qed.

(** Allocation leaves every object of the store where it was, and the new
    object sits at the address returned. *)
Lemma alloc_old (l : list object) o a x :
  l !! a = Some x → (l ++ [o]) !! a = Some x.
Proof. apply lookup_app_l_Some. Qed.

Lemma alloc_new (l : list object) o : (l ++ [o]) !! length l = Some o.
Proof. by rewrite list_lookup_middle. Qed.

Lemma alloc_fresh (l : list object) : l !! length l = None.
Proof. apply lookup_ge_None. lia. Qed.

Lemma getattr_run self o name dflt w :
  heap w !! self = Some o →
  getattr self name dflt w = (Returned (resolve self o name dflt), w).
Proof.
  intros Hself. unfold getattr.
  by rewrite (bind_Returned _ _ _ _ _ (deref_Some _ _ _ Hself)).
Qed.

(** ** Stripping *)




(** Whitespace inside is kept; a string of whitespace becomes empty. *)
Lemma strip_examples :
  strip " xoxb-1234 " = "xoxb-1234" ∧ strip "a b" = "a b" ∧
  strip (String (Ascii.ascii_of_nat 9) (String (Ascii.ascii_of_nat 10) " "))
    = "" ∧
  strip "" = "".
Proof. done. Qed.

(** ** Attribute resolution on a webhook holder *)

(** The name [_raise_on_failure] is bound in the class body of
    [SlackWebhook] (line 113), so looking it up on a holder finds the method,
    whatever the host keeps under that name and whatever the default is. *)
Lemma resolve__raise_on_failure self url p dflt :
  resolve self (OSlackWebhook url p) "_raise_on_failure" dflt
  = PyBoundMethod self "_raise_on_failure".
Proof. reflexivity. Qed.

(** ** The methods *)

Lemma SlackCredentials_get_client_run self token w :
  heap w !! self = Some (OSlackCredentials token) →
  SlackCredentials_get_client self w =
    (Returned (length (heap w)),
     {| heap := heap w ++ [OAsyncWebClient (get_secret_value token)];
        sent := sent w; suspensions := suspensions w |}).
Proof.
  intros Hself. unfold SlackCredentials_get_client.
  by rewrite (bind_Returned _ _ _ _ _ (deref_Some _ _ _ Hself)).
Qed.

Lemma SlackWebhook_get_client_run self url p sync_client w :
  heap w !! self = Some (OSlackWebhook url p) →
  SlackWebhook_get_client self sync_client w =
    (Returned (length (heap w)),
     {| heap := heap w ++
                [handle_of (if default false sync_client then Blocking
                            else Suspending) (get_secret_value url)];
        sent := sent w; suspensions := suspensions w |}).
Proof.
  intros Hself. unfold SlackWebhook_get_client.
  rewrite (bind_Returned _ _ _ _ _ (deref_Some _ _ _ Hself)).
  by destruct (default false sync_client).
Qed.

Section Runs.

Context (host : Host).

Lemma send_run client k u kw w :
  heap w !! client = Some (handle_of k u) →
  send host client kw w =
    (match send_stub host (SendCall k u kw) with
     | inl r => Returned r
     | inr e => Raised e
     end,
     {| heap := heap w; sent := sent w ++ [SendCall k u kw];
        suspensions := suspensions w |}).
Proof.
  intros Hc. unfold send.
  rewrite (bind_Returned _ _ _ _ _ (deref_Some _ _ _ Hc)).
  by destruct k.
Qed.

(** What [_raise_on_failure] does with a response: the probe of line 117
    is always true on a webhook holder, so only the status code decides. *)
Lemma SlackWebhook__raise_on_failure_run self url p response w :
  heap w !! self = Some (OSlackWebhook url p) →
  SlackWebhook__raise_on_failure host self response w =
    (if (status_code response >=? 400)%Z
     then Raised (Exn (failure_class host)
                      ("Failed to send message: " +:+ body response))
     else Returned tt,
     w).
Proof.
  intros Hself. unfold SlackWebhook__raise_on_failure.
  rewrite (bind_Returned _ _ _ _ _ (getattr_run _ _ _ _ _ Hself)).
  rewrite resolve__raise_on_failure. cbn [truthy].
  by destruct (status_code response >=? 400)%Z.
Qed.

Lemma SlackWebhook_notify__wrapped_run self url p text subject w :
  heap w !! self = Some (OSlackWebhook url p) →
  SlackWebhook_notify__wrapped host self text subject w =
    (verdict host (send_stub host (text_call Blocking url text)),
     world_after (ViaNotify false) url text w).
Proof.
  intros Hself. unfold SlackWebhook_notify__wrapped.
  rewrite (bind_Returned _ _ _ _ _
             (SlackWebhook_get_client_run _ _ _ (Some true) _ Hself)).
  cbn [default].
  set (w1 := {| heap := _ |}).
  assert (Hc : heap w1 !! length (heap w)
               = Some (handle_of Blocking (get_secret_value url)))
    by apply alloc_new.
  assert (Hself1 : heap w1 !! self = Some (OSlackWebhook url p))
    by by apply alloc_old.
  pose proof (send_run _ _ _ [("text", text)] _ Hc) as Hsend.
  unfold verdict, text_call.
  destruct (send_stub host _) as [r|err].
  - rewrite (bind_Returned _ _ _ _ _ Hsend).
    by rewrite (SlackWebhook__raise_on_failure_run _ url p).
  - by rewrite (bind_Raised _ _ _ _ _ Hsend).
Qed.

Lemma invoke_get_client_run obj url p w :
  heap w !! obj = Some (OSlackWebhook url p) →
  invoke_get_client obj w = SlackWebhook_get_client obj None w.
Proof.
  intros Hobj. unfold invoke_get_client.
  by rewrite (bind_Returned _ _ _ _ _ (deref_Some _ _ _ Hobj)).
Qed.

Lemma invoke__raise_on_failure_run obj url p response w :
  heap w !! obj = Some (OSlackWebhook url p) →
  invoke__raise_on_failure host obj response w =
    SlackWebhook__raise_on_failure host obj response w.
Proof.
  intros Hobj. unfold invoke__raise_on_failure.
  by rewrite (bind_Returned _ _ _ _ _ (deref_Some _ _ _ Hobj)).
Qed.

Lemma _notify_async_run obj url p text subject w :
  heap w !! obj = Some (OSlackWebhook url p) →
  _notify_async host obj text subject w =
    (verdict host (send_stub host (text_call Suspending url text)),
     world_after (ViaNotify true) url text w).
Proof.
  intros Hobj. unfold _notify_async.
  rewrite (bind_Returned _ _ _ _ _
             (eq_trans (invoke_get_client_run _ _ _ _ Hobj)
                (SlackWebhook_get_client_run _ _ _ None _ Hobj))).
  cbn [default].
  set (w1 := {| heap := _ |}).
  set (w2 := {| heap := heap w1; sent := sent w1;
                suspensions := S (suspensions w1) |}).
  assert (Hc : heap w2 !! length (heap w)
               = Some (handle_of Suspending (get_secret_value url)))
    by apply alloc_new.
  assert (Hobj2 : heap w2 !! obj = Some (OSlackWebhook url p))
    by by apply alloc_old.
  pose proof (send_run _ _ _ [("text", text)] _ Hc) as Hsend.
  change (send host (length (heap w)) [("text", text)] w2)
    with (await (send host (length (heap w)) [("text", text)]) w1) in Hsend.
  unfold verdict, text_call.
  destruct (send_stub host _) as [r|err].
  - rewrite (bind_Returned _ _ _ _ _ Hsend).
    rewrite (invoke__raise_on_failure_run _ url p); [|done].
    by rewrite (SlackWebhook__raise_on_failure_run _ url p).
  - by rewrite (bind_Raised _ _ _ _ _ Hsend).
Qed.

(** Every entry point, on a webhook holder: one handle is constructed, one
    call is made, and the answer decides the outcome. *)
Lemma run_notify_run e self url p text subject w :
  heap w !! self = Some (OSlackWebhook url p) →
  run_notify host e self text subject w =
    (verdict host (send_stub host (text_call (client_variant e) url text)),
     world_after e url text w).
Proof.
  intros Hself. destruct e as [[|]|];
    cbn [run_notify SlackWebhook_notify async_dispatch];
    unfold SlackWebhook_notify, async_dispatch.
  - by apply (_notify_async_run _ url p).
  - by apply (SlackWebhook_notify__wrapped_run _ url p).
  - unfold SlackWebhook_notify_async, await.
    rewrite (_notify_async_run _ url p); [|done].
    reflexivity.
Qed.

End Runs.

(** X1.  What the code does in place of the probe: on a webhook holder, in
    every form of [notify], a response is turned into the failure exception
    ([NotificationError], or [Exception] where that cannot be imported, with
    the message [Failed to send message: ] followed by the response body)
    exactly when its status code is 400 or more, whatever the host keeps for
    the holder. *)
Lemma notify_raises_iff_status host e self url p text subject w r :
  heap w !! self = Some (OSlackWebhook url p) →
  send_stub host (text_call (client_variant e) url text) = inl r →
  fst (run_notify host e self text subject w)
    = Raised (Exn (failure_class host)
                  ("Failed to send message: " +:+ body r))
  ↔ (400 ≤ status_code r)%Z.
Proof.
  intros Hself Hr. rewrite (run_notify_run _ _ _ url p); [|done].
  rewrite Hr. cbn [fst verdict].
  destruct (status_code r >=? 400)%Z eqn:Hs.
  - split; [|done]. intros _. apply Z.geb_le in Hs. lia.
  - split; [done|]. intros Hge. apply Z.geb_le in Hge. congruence.
Qed.

(** ** The store only grows *)

Lemma grows_only_ret {A} (a : A) : grows_only (mret a).
Proof. by intros w. Qed.

Lemma grows_only_raise {A} e : grows_only (@raise A e).
Proof. by intros w. Qed.

Lemma grows_only_deref a : grows_only (deref a).
Proof. intros w. unfold deref. by destruct (heap w !! a). Qed.

Lemma grows_only_alloc o : grows_only (alloc o).
Proof. intros w. by apply prefix_app_r. Qed.

Lemma grows_only_transport host c : grows_only (transport host c).
Proof. by intros w. Qed.

Lemma grows_only_await {A} (m : Py A) : grows_only m → grows_only (await m).
Proof. intros Hm w. apply (Hm {| heap := heap w |}). Qed.

Lemma grows_only_bind {A B} (m : Py A) (k : A → Py B) :
  grows_only m → (∀ a, grows_only (k a)) → grows_only (m ≫= k).
Proof.
  intros Hm Hk w. unfold mbind, Py_bind.
  pose proof (Hm w) as Hw. destruct (m w) as [[a|e] w']; [|done].
  by etrans; [|apply Hk].
Qed.

Create HintDb frame.

#[local] Hint Resolve grows_only_ret grows_only_raise grows_only_deref
  grows_only_alloc grows_only_transport grows_only_await : frame.

(** One step through a method body. *)
Ltac frame_step :=
  match goal with
  | |- grows_only (_ ≫= _) => apply grows_only_bind; [|intros ?]
  | |- grows_only (await _) => apply grows_only_await
  | |- grows_only (match ?o with _ => _ end) => destruct o
  | |- grows_only (if ?b then _ else _) => destruct b
  | |- grows_only _ => solve [auto with frame]
  end.

Lemma grows_only_getattr self name dflt : grows_only (getattr self name dflt).
Proof. unfold getattr. repeat frame_step. Qed.

Lemma grows_only_send host client kw : grows_only (send host client kw).
Proof. unfold send. repeat frame_step. Qed.

Lemma grows_only_SlackCredentials_get_client self :
  grows_only (SlackCredentials_get_client self).
Proof. unfold SlackCredentials_get_client. repeat frame_step. Qed.

Lemma grows_only_SlackWebhook_get_client self sync_client :
  grows_only (SlackWebhook_get_client self sync_client).
Proof. unfold SlackWebhook_get_client. repeat frame_step. Qed.

Lemma grows_only_SlackWebhook__raise_on_failure host self response :
  grows_only (SlackWebhook__raise_on_failure host self response).
Proof.
  unfold SlackWebhook__raise_on_failure.
  apply grows_only_bind; [apply grows_only_getattr|intros probe].
  repeat frame_step.
Qed.

#[local] Hint Resolve grows_only_getattr grows_only_send
  grows_only_SlackCredentials_get_client grows_only_SlackWebhook_get_client
  grows_only_SlackWebhook__raise_on_failure : frame.

Lemma grows_only__notify_async host obj text subject :
  grows_only (_notify_async host obj text subject).
Proof.
  unfold _notify_async, invoke_get_client, invoke__raise_on_failure.
  repeat frame_step.
Qed.

Lemma grows_only_run_notify host e self text subject :
  grows_only (run_notify host e self text subject).
Proof.
  destruct e as [[|]|]; cbn [run_notify];
    unfold SlackWebhook_notify, async_dispatch, SlackWebhook_notify_async,
      SlackWebhook_notify__wrapped.
  - apply grows_only__notify_async.
  - repeat frame_step.
  - apply grows_only_await, grows_only__notify_async.
Qed.

Lemma perform_grows_only host c w : heap w `prefix_of` heap (perform host c w).
Proof.
  destruct c; cbn [perform].
  - apply grows_only_SlackCredentials_get_client.
  - apply grows_only_SlackWebhook_get_client.
  - apply grows_only_run_notify.
Qed.

Lemma perform_all_grows_only host cs w :
  heap w `prefix_of` heap (perform_all host cs w).
Proof.
  revert w. induction cs as [|c cs IH]; intros w; [done|].
  cbn. etrans; [apply (perform_grows_only host c)|apply IH].
Qed.

(** * The claims *)

(** C1 (the code departs from the claim).  The claim: [notify] raises the
    notification failure if and only if the host asks for failure surfacing
    and the status code is at least 400; with a stubbed client answering 404
    and [invalid_payload] it returns normally when the capability is absent.
    The code: on a host without the capability (nothing kept under
    [_raise_on_failure], [NotificationError] not importable), [notify("hi")]
    raises [Failed to send message: invalid_payload], in the blocking and in
    the suspension-based form; and it raises as well on a current host whose
    flag is off. *)
Theorem notify_raises_without_capability :
  wants_failure_surfacing (OSlackWebhook hook_url flag_absent) = false ∧
  fst (SlackWebhook_notify (older_host (inl (Response 404 "invalid_payload")))
         false 1 "hi" None (store_with flag_absent))
    = Raised (Exn Exception "Failed to send message: invalid_payload") ∧
  fst (SlackWebhook_notify (older_host (inl (Response 404 "invalid_payload")))
         true 1 "hi" None (store_with flag_absent))
    = Raised (Exn Exception "Failed to send message: invalid_payload") ∧
  wants_failure_surfacing (OSlackWebhook hook_url flag_off) = false ∧
  fst (SlackWebhook_notify (current_host (inl (Response 404 "invalid_payload")))
         false 1 "hi" None (store_with flag_off))
    = Raised (Exn NotificationError "Failed to send message: invalid_payload").
Proof. repeat split; reflexivity. Qed.

(** C2.  In every form of [notify], for every body and every subject, the
    call made to the client's [send] carries exactly the body as its [text]
    and nothing else, and the subject has no influence at all: the run with
    any subject is the run with any other. *)
Theorem notify_transmits_body_only host e self url p text subject w :
  heap w !! self = Some (OSlackWebhook url p) →
  sent (snd (run_notify host e self text subject w))
    = sent w ++ [{| variant := client_variant e;
                    target := get_secret_value url;
                    kwargs := [("text", text)] |}]
  ∧ ∀ subject',
      run_notify host e self text subject' w
      = run_notify host e self text subject w.
Proof.
  intros Hself. split.
  - by rewrite (run_notify_run _ _ _ url p).
  - intros subject'. by rewrite !(run_notify_run _ _ _ url p).
Qed.

Lemma notify_transmits_body_only_witness :
  heap (store_with flag_on) !! 1 = Some (OSlackWebhook hook_url flag_on) ∧
  sent (snd (run_notify (current_host (inl (Response 200 "ok")))
               (ViaNotify true) 1 "hello" (Some "ignored")
               (store_with flag_on)))
    = [] ++ [{| variant := Suspending;
                target := "https://hooks.slack.com/XXX";
                kwargs := [("text", "hello")] |}].
Proof.
  split; [reflexivity|].
  apply (notify_transmits_body_only
           (current_host (inl (Response 200 "ok"))) (ViaNotify true)
           1 hook_url flag_on "hello" (Some "ignored") (store_with flag_on)).
  reflexivity.
Defined.

(** C3.  For every webhook holder, body and subject, and a stub that
    answers the two client variants alike, any two forms of [notify]
    (blocking, suspension-based, [notify_async]) end the same way: both
    return, or both raise the same exception with the same content; and
    both transmit the same keyword arguments to the same URL. *)
Theorem notify_forms_agree host e1 e2 self url p text subject w :
  heap w !! self = Some (OSlackWebhook url p) →
  send_stub host (text_call (client_variant e1) url text)
    = send_stub host (text_call (client_variant e2) url text) →
  let run1 := run_notify host e1 self text subject w in
  let run2 := run_notify host e2 self text subject w in
  fst run1 = fst run2 ∧
  kwargs <$> sent (snd run1) = kwargs <$> sent (snd run2) ∧
  target <$> sent (snd run1) = target <$> sent (snd run2).
Proof.
  intros Hself Hstub. cbn zeta.
  rewrite !(run_notify_run _ _ _ url p); [|done..].
  cbn [fst snd world_after sent]. rewrite Hstub, !fmap_app. done.
Qed.

Lemma notify_forms_agree_witness :
  (heap (store_with flag_on) !! 1 = Some (OSlackWebhook hook_url flag_on) ∧
   send_stub (current_host (inl (Response 404 "invalid_payload")))
     (text_call Blocking hook_url "hi")
   = send_stub (current_host (inl (Response 404 "invalid_payload")))
       (text_call Suspending hook_url "hi")) ∧
  fst (run_notify (current_host (inl (Response 404 "invalid_payload")))
         (ViaNotify false) 1 "hi" None (store_with flag_on))
  = fst (run_notify (current_host (inl (Response 404 "invalid_payload")))
           (ViaNotify true) 1 "hi" None (store_with flag_on)).
Proof.
  split; [split; reflexivity|].
  apply (notify_forms_agree
           (current_host (inl (Response 404 "invalid_payload")))
           (ViaNotify false) (ViaNotify true) 1 hook_url flag_on "hi" None
           (store_with flag_on)); reflexivity.
Defined.




(** C5.  For every secret URL stored in the webhook holder, the handle
    [get_client] returns with the sync option and the one it returns with
    the async option are bound to the same URL, the unwrapped secret. *)
Theorem webhook_get_client_same_url self url p w :
  heap w !! self = Some (OSlackWebhook url p) →
  ∃ hs ws ha wa,
    SlackWebhook_get_client self (Some true) w = (Returned hs, ws) ∧
    SlackWebhook_get_client self (Some false) w = (Returned ha, wa) ∧
    heap ws !! hs = Some (OWebhookClient (get_secret_value url)) ∧
    heap wa !! ha = Some (OAsyncWebhookClient (get_secret_value url)).
Proof.
  intros Hself. eexists _, _, _, _.
  split; [by apply (SlackWebhook_get_client_run _ url p)|].
  split; [by apply (SlackWebhook_get_client_run _ url p)|].
  cbn. split; apply alloc_new.
Qed.

Lemma webhook_get_client_same_url_witness :
  heap (store_with flag_absent) !! 1
    = Some (OSlackWebhook hook_url flag_absent) ∧
  ∃ hs ws ha wa,
    SlackWebhook_get_client 1 (Some true) (store_with flag_absent)
      = (Returned hs, ws) ∧
    SlackWebhook_get_client 1 (Some false) (store_with flag_absent)
      = (Returned ha, wa) ∧
    heap ws !! hs = Some (OWebhookClient "https://hooks.slack.com/XXX") ∧
    heap wa !! ha = Some (OAsyncWebhookClient "https://hooks.slack.com/XXX").
Proof.
  split; [reflexivity|].
  apply (webhook_get_client_same_url 1 hook_url flag_absent
           (store_with flag_absent)).
  reflexivity.
Defined.

(** C6.  For every webhook holder whose stubbed client answers with status
    code 200, [notify] returns normally in every form (blocking,
    suspension-based, [notify_async]), for every body ("hi" among them),
    whatever the host keeps for the holder and whether or not it supplies
    [NotificationError]. *)
Theorem notify_returns_on_200 host e self url p text subject w r :
  heap w !! self = Some (OSlackWebhook url p) →
  send_stub host (text_call (client_variant e) url text) = inl r →
  status_code r = 200%Z →
  fst (run_notify host e self text subject w) = Returned tt.
Proof.
  intros Hself Hr Hs. rewrite (run_notify_run _ _ _ url p); [|done].
  rewrite Hr. cbn [fst verdict]. by rewrite Hs.
Qed.

Lemma notify_returns_on_200_witness :
  (heap (store_with flag_on) !! 1 = Some (OSlackWebhook hook_url flag_on) ∧
   send_stub (current_host (inl (Response 200 "ok")))
     (text_call Blocking hook_url "hi") = inl (Response 200 "ok") ∧
   status_code (Response 200 "ok") = 200%Z) ∧
  fst (run_notify (current_host (inl (Response 200 "ok")))
         (ViaNotify false) 1 "hi" None (store_with flag_on)) = Returned tt.
Proof.
  split; [repeat split|].
  apply (notify_returns_on_200 (current_host (inl (Response 200 "ok")))
           (ViaNotify false) 1 hook_url flag_on "hi" None
           (store_with flag_on) (Response 200 "ok")); reflexivity.
Defined.

(** C7.  In every form of [notify] the client's [send] is called exactly
    once, whatever the outcome, and an error raised by [send] itself is the
    outcome of [notify], unchanged. *)
Theorem notify_single_attempt host e self url p text subject w :
  heap w !! self = Some (OSlackWebhook url p) →
  (∃ c, sent (snd (run_notify host e self text subject w)) = sent w ++ [c]) ∧
  length (sent (snd (run_notify host e self text subject w)))
    = S (length (sent w)) ∧
  ∀ err,
    send_stub host (text_call (client_variant e) url text) = inr err →
    fst (run_notify host e self text subject w) = Raised err.
Proof.
  intros Hself. rewrite (run_notify_run _ _ _ url p); [|done].
  cbn [fst snd world_after sent]. split; [by eexists|].
  split.
  - rewrite length_app. cbn. lia.
  - intros err Herr. by rewrite Herr.
Qed.

Lemma notify_single_attempt_witness :
  heap (store_with flag_on) !! 1 = Some (OSlackWebhook hook_url flag_on) ∧
  fst (run_notify
         (current_host (inr (Exn (TransportError "URLError") "unreachable")))
         (ViaNotify false) 1 "hi" None (store_with flag_on))
    = Raised (Exn (TransportError "URLError") "unreachable").
Proof.
  split; [reflexivity|].
  apply (notify_single_attempt
           (current_host (inr (Exn (TransportError "URLError") "unreachable")))
           (ViaNotify false) 1 hook_url flag_on "hi" None
           (store_with flag_on)); reflexivity.
Defined.

(** C8.  Every invocation of [get_client], on either holder, and every
    invocation of [notify] constructs a client handle of its own from the
    stored secret, at an address that held nothing before; the holder keeps
    no handle.  Two successive invocations yield two distinct handles, both
    built from the same stored secret.  Each holder on its own: nothing is
    asked of the rest of the store. *)
Theorem handles_are_fresh host w :
  (∀ cred token,
     heap w !! cred = Some (OSlackCredentials token) →
     ∃ h1 w1 h2 w2,
       SlackCredentials_get_client cred w = (Returned h1, w1) ∧
       SlackCredentials_get_client cred w1 = (Returned h2, w2) ∧
       heap w !! h1 = None ∧ heap w1 !! h2 = None ∧ h1 ≠ h2 ∧
       heap w2 !! h1 = Some (OAsyncWebClient (get_secret_value token)) ∧
       heap w2 !! h2 = Some (OAsyncWebClient (get_secret_value token)) ∧
       heap w2 !! cred = Some (OSlackCredentials token)) ∧
  (∀ hook url p sc1 sc2,
     heap w !! hook = Some (OSlackWebhook url p) →
     ∃ h1 w1 h2 w2,
       SlackWebhook_get_client hook sc1 w = (Returned h1, w1) ∧
       SlackWebhook_get_client hook sc2 w1 = (Returned h2, w2) ∧
       heap w !! h1 = None ∧ heap w1 !! h2 = None ∧ h1 ≠ h2 ∧
       heap w2 !! h1
         = Some (handle_of (if default false sc1 then Blocking
                            else Suspending) (get_secret_value url)) ∧
       heap w2 !! h2
         = Some (handle_of (if default false sc2 then Blocking
                            else Suspending) (get_secret_value url)) ∧
       heap w2 !! hook = Some (OSlackWebhook url p)) ∧
  (∀ hook url p e1 text1 subject1 e2 text2 subject2,
     heap w !! hook = Some (OSlackWebhook url p) →
     let w1 := snd (run_notify host e1 hook text1 subject1 w) in
     let w2 := snd (run_notify host e2 hook text2 subject2 w1) in
     let h1 := length (heap w) in
     let h2 := length (heap w1) in
     heap w !! h1 = None ∧ heap w1 !! h2 = None ∧ h1 ≠ h2 ∧
     heap w1
       = heap w ++ [handle_of (client_variant e1) (get_secret_value url)] ∧
     heap w2
       = heap w1 ++ [handle_of (client_variant e2) (get_secret_value url)] ∧
     heap w2 !! hook = Some (OSlackWebhook url p)).
Proof.
  split; [|split].
  - intros cred token Hcred.
    assert (Hcred1 :
      (heap w ++ [OAsyncWebClient (get_secret_value token)]) !! cred
      = Some (OSlackCredentials token)) by by apply alloc_old.
    eexists _, _, _, _.
    split; [by apply SlackCredentials_get_client_run|].
    split; [by apply SlackCredentials_get_client_run|].
    cbn [heap]. by fresh_pair.
  - intros hook url p sc1 sc2 Hhook.
    set (k1 := if default false sc1 then Blocking else Suspending).
    assert (Hhook1 : (heap w ++ [handle_of k1 (get_secret_value url)]) !! hook
                     = Some (OSlackWebhook url p)) by by apply alloc_old.
    eexists _, _, _, _.
    split; [by apply (SlackWebhook_get_client_run _ url p)|].
    split; [by apply (SlackWebhook_get_client_run _ url p)|].
    cbn [heap]. by fresh_pair.
  - intros hook url p e1 text1 subject1 e2 text2 subject2 Hhook. cbn zeta.
    rewrite (run_notify_run host e1 hook url p text1 subject1 w Hhook).
    cbn [snd].
    assert (Hhook1 : heap (world_after e1 url text1 w) !! hook
                     = Some (OSlackWebhook url p)) by by apply alloc_old.
    rewrite (run_notify_run host e2 hook url p text2 subject2 _ Hhook1).
    cbn [snd world_after heap].
    split; [apply alloc_fresh|].
    split; [apply alloc_fresh|].
    split; [rewrite length_app; cbn; lia|].
    split; [done|]. split; [done|].
    by apply alloc_old.
Qed.

Lemma handles_are_fresh_witness :
  let host := current_host (inl (Response 200 "ok")) in
  let w := hook_only_store in
  let w1 := snd (run_notify host (ViaNotify false) 0 "hi" None w) in
  let w2 := snd (run_notify host (ViaNotify true) 0 "again" None w1) in
  heap w !! 0 = Some (OSlackWebhook hook_url flag_on) ∧
  heap w2 = heap w ++ [OWebhookClient "https://hooks.slack.com/XXX";
                       OAsyncWebhookClient "https://hooks.slack.com/XXX"].
Proof.
  cbn zeta. split; [reflexivity|].
  pose proof (handles_are_fresh (current_host (inl (Response 200 "ok")))
                hook_only_store) as (_ & _ & Hnotify).
  destruct (Hnotify 0 hook_url flag_on (ViaNotify false) "hi" None
              (ViaNotify true) "again" None eq_refl)
    as (_ & _ & _ & H1 & H2 & _).
  rewrite H2, H1. reflexivity.
Defined.

(** C9.  Called with no argument, the webhook holder's [get_client] takes
    the sync option to be false and returns the suspension-based (async)
    client variant. *)
Theorem webhook_get_client_default self url p w :
  heap w !! self = Some (OSlackWebhook url p) →
  SlackWebhook_get_client self None w
    = SlackWebhook_get_client self (Some false) w ∧
  ∃ handle w',
    SlackWebhook_get_client self None w = (Returned handle, w') ∧
    heap w' !! handle = Some (OAsyncWebhookClient (get_secret_value url)).
Proof.
  intros Hself. split; [done|].
  eexists _, _. split; [by apply (SlackWebhook_get_client_run _ url p)|].
  apply alloc_new.
Qed.

Lemma webhook_get_client_default_witness :
  heap (store_with flag_absent) !! 1
    = Some (OSlackWebhook hook_url flag_absent) ∧
  ∃ handle w',
    SlackWebhook_get_client 1 None (store_with flag_absent)
      = (Returned handle, w') ∧
    heap w' !! handle = Some (OAsyncWebhookClient "https://hooks.slack.com/XXX").
Proof.
  split; [reflexivity|].
  apply (webhook_get_client_default 1 hook_url flag_absent
           (store_with flag_absent)).
  reflexivity.
Defined.

(** C10.  No public operation changes what a holder stores: after any
    sequence of calls of [get_client] (on either holder) and of [notify] (in
    any form, returning or raising), a credential holder still has the token
    and a webhook holder still has the URL (and the private attributes the
    host keeps) that it had before the calls. *)
Theorem holders_unchanged host calls w :
  (∀ self token,
     heap w !! self = Some (OSlackCredentials token) →
     heap (perform_all host calls w) !! self
       = Some (OSlackCredentials token)) ∧
  (∀ self url p,
     heap w !! self = Some (OSlackWebhook url p) →
     heap (perform_all host calls w) !! self = Some (OSlackWebhook url p)).
Proof.
  split; intros; eapply prefix_lookup_Some; eauto using perform_all_grows_only.
Qed.

Lemma holders_unchanged_witness :
  let host := current_host (inl (Response 404 "invalid_payload")) in
  let calls := [CredentialsGetClient 0; WebhookGetClient 1 None;
                WebhookNotify (ViaNotify true) 1 "hi" None;
                WebhookNotify (ViaNotify false) 1 "hi" (Some "s")] in
  let w := store_with flag_on in
  heap w !! 1 = Some (OSlackWebhook hook_url flag_on) ∧
  heap (perform_all host calls w) !! 1 = Some (OSlackWebhook hook_url flag_on).
Proof.
  cbn zeta. split; [reflexivity|].
  apply (holders_unchanged
           (current_host (inl (Response 404 "invalid_payload")))
           [CredentialsGetClient 0; WebhookGetClient 1 None;
            WebhookNotify (ViaNotify true) 1 "hi" None;
            WebhookNotify (ViaNotify false) 1 "hi" (Some "s")]
           (store_with flag_on)).
  reflexivity.
Defined.

(** * Further properties of the code *)

(** ** Running call sequences *)

Lemma perform_step host c w :
  well_targeted w c = true →
  heap (perform host c w) = heap w ++ constructs w c ∧
  sent (perform host c w) = sent w ++ transmits w c.
Proof.
  destruct c as [self|self sc|e self text subject];
    cbn [well_targeted perform constructs transmits];
    destruct (heap w !! self) as [[token|url p| | |]|] eqn:Hself;
    try discriminate; intros _.
  - rewrite (SlackCredentials_get_client_run _ _ _ Hself).
    cbn [snd heap sent]. by rewrite app_nil_r.
  - rewrite (SlackWebhook_get_client_run _ _ _ sc _ Hself).
    cbn [snd heap sent]. by rewrite app_nil_r.
  - by rewrite (run_notify_run _ _ _ _ _ _ _ _ Hself).
Qed.

Lemma well_targeted_stable w w' c :
  heap w `prefix_of` heap w' →
  well_targeted w c = true →
  well_targeted w' c = true ∧
  constructs w' c = constructs w c ∧
  transmits w' c = transmits w c.
Proof.
  intros Hpre.
  destruct c as [self|self sc|e self text subject];
    cbn [well_targeted constructs transmits];
    (destruct (heap w !! self) as [o|] eqn:Hself; [|by intros ?]);
    assert (Hself' : heap w' !! self = Some o)
      by (by eapply prefix_lookup_Some);
    rewrite Hself'; by destruct o.
Qed.

Lemma well_targeted_stable_all w w' cs :
  heap w `prefix_of` heap w' →
  forallb (well_targeted w) cs = true →
  forallb (well_targeted w') cs = true ∧
  flat_map (constructs w') cs = flat_map (constructs w) cs ∧
  flat_map (transmits w') cs = flat_map (transmits w) cs.
Proof.
  intros Hpre. induction cs as [|c cs IH]; [done|].
  cbn [forallb flat_map]. intros [Hc Hcs]%andb_prop.
  destruct (well_targeted_stable _ _ _ Hpre Hc) as (-> & -> & ->).
  by destruct (IH Hcs) as (-> & -> & ->).
Qed.

Lemma constructs_one w c :
  well_targeted w c = true → length (constructs w c) = 1.
Proof.
  destruct c as [self|self sc|e self text subject];
    cbn [well_targeted constructs];
    by destruct (heap w !! self) as [[]|].
Qed.

(** ** What the code does with a response *)

Lemma notify_raises_iff_status_witness :
  (heap (store_with flag_off) !! 1 = Some (OSlackWebhook hook_url flag_off) ∧
   send_stub (current_host (inl (Response 400 "no_text")))
     (text_call Suspending hook_url "hi") = inl (Response 400 "no_text")) ∧
  (fst (run_notify (current_host (inl (Response 400 "no_text")))
          (ViaNotify true) 1 "hi" None (store_with flag_off))
     = Raised (Exn NotificationError "Failed to send message: no_text")
   ↔ (400 ≤ 400)%Z).
Proof.
  split; [split; reflexivity|].
  apply (notify_raises_iff_status
           (current_host (inl (Response 400 "no_text"))) (ViaNotify true) 1
           hook_url flag_off "hi" None (store_with flag_off)
           (Response 400 "no_text")); reflexivity.
Defined.

(** X2.  When [send] has answered, [notify] returns normally, in every
    form, exactly when the status code is below 400: redirects, informational
    codes, zero and negative codes all count as delivered. *)
Theorem notify_returns_iff_below_400 host e self url p text subject w r :
  heap w !! self = Some (OSlackWebhook url p) →
  send_stub host (text_call (client_variant e) url text) = inl r →
  fst (run_notify host e self text subject w) = Returned tt
  ↔ (status_code r < 400)%Z.
Proof.
  intros Hself Hr. rewrite (run_notify_run _ _ _ url p); [|done].
  rewrite Hr. cbn [fst verdict].
  destruct (status_code r >=? 400)%Z eqn:Hs.
  - apply Z.geb_le in Hs. split; [done|lia].
  - split; [|done]. intros _.
    destruct (Z.lt_ge_cases (status_code r) 400) as [|Hge]; [done|].
    apply Z.geb_le in Hge. congruence.
Qed.

Lemma notify_returns_iff_below_400_witness :
  (heap (store_with flag_on) !! 1 = Some (OSlackWebhook hook_url flag_on) ∧
   send_stub (current_host (inl (Response 399 "odd")))
     (text_call Blocking hook_url "hi") = inl (Response 399 "odd")) ∧
  (fst (run_notify (current_host (inl (Response 399 "odd")))
          (ViaNotify false) 1 "hi" None (store_with flag_on)) = Returned tt
   ↔ (399 < 400)%Z).
Proof.
  split; [split; reflexivity|].
  apply (notify_returns_iff_below_400
           (current_host (inl (Response 399 "odd"))) (ViaNotify false) 1
           hook_url flag_on "hi" None (store_with flag_on)
           (Response 399 "odd")); reflexivity.
Defined.

(** X3.  The outcome of [notify] on a webhook holder depends on the stored
    URL, the text and the host's transport only: two holders with the same
    URL end the same way whatever private attributes the host keeps for
    either of them, and whatever else the store, the log and the suspension
    count are. *)
Theorem notify_outcome_ignores_private_store host e self self' url p p' text
    subject subject' w w' :
  heap w !! self = Some (OSlackWebhook url p) →
  heap w' !! self' = Some (OSlackWebhook url p') →
  fst (run_notify host e self text subject w)
  = fst (run_notify host e self' text subject' w').
Proof.
  intros Hself Hself'.
  by rewrite (run_notify_run _ _ _ _ _ _ _ _ Hself),
    (run_notify_run _ _ _ _ _ _ _ _ Hself').
Qed.

Lemma notify_outcome_ignores_private_store_witness :
  (heap (store_with flag_on) !! 1 = Some (OSlackWebhook hook_url flag_on) ∧
   heap (store_with flag_off) !! 1 = Some (OSlackWebhook hook_url flag_off)) ∧
  fst (run_notify (current_host (inl (Response 500 "down")))
         (ViaNotify false) 1 "hi" None (store_with flag_on))
  = fst (run_notify (current_host (inl (Response 500 "down")))
           (ViaNotify false) 1 "hi" None (store_with flag_off)).
Proof.
  split; [split; reflexivity|].
  apply (notify_outcome_ignores_private_store
           (current_host (inl (Response 500 "down"))) (ViaNotify false) 1 1
           hook_url flag_on flag_off "hi" None None
           (store_with flag_on) (store_with flag_off)); reflexivity.
Defined.

(** X4.  [get_client], on either class and for either variant, performs no
    network call and passes no suspension point, whatever object it is
    called on; it adds at most one object to the store. *)
Theorem get_client_sends_nothing self sync_client w :
  let w1 := snd (SlackWebhook_get_client self sync_client w) in
  let w2 := snd (SlackCredentials_get_client self w) in
  (sent w1 = sent w ∧ suspensions w1 = suspensions w ∧
   (length (heap w1) ≤ S (length (heap w)))%nat) ∧
  (sent w2 = sent w ∧ suspensions w2 = suspensions w ∧
   (length (heap w2) ≤ S (length (heap w)))%nat).
Proof.
  cbn zeta.
  unfold SlackWebhook_get_client, SlackCredentials_get_client, mbind, Py_bind,
    deref.
  destruct (heap w !! self) as [[token|url p| | |]|];
    destruct (default false sync_client);
    cbn; rewrite ?length_app; cbn; repeat split; lia.
Qed.

(** X5.  A sequence of calls of the public operations, each made on a holder
    of the right class, adds to the store one handle per call, in call
    order, each built from the secret of the holder it was called on, and
    adds to the log one [send] per [notify], in call order, with that call's
    body as text; [get_client] calls add nothing to the log.  Outcomes of
    earlier calls (returned or raised) change nothing of this. *)
Theorem calls_compose host calls w :
  forallb (well_targeted w) calls = true →
  heap (perform_all host calls w) = heap w ++ flat_map (constructs w) calls ∧
  sent (perform_all host calls w) = sent w ++ flat_map (transmits w) calls ∧
  length (heap (perform_all host calls w)) = length (heap w) + length calls.
Proof.
  revert w. induction calls as [|c cs IH]; intros w.
  - intros _. cbn. rewrite !app_nil_r. repeat split. lia.
  - cbn [forallb]. intros [Hc Hcs]%andb_prop.
    change (perform_all host (c :: cs) w)
      with (perform_all host cs (perform host c w)).
    destruct (perform_step host c w Hc) as [Hheap Hsent].
    destruct (well_targeted_stable_all w (perform host c w) cs
                (perform_grows_only host c w) Hcs) as (Hcs' & Hk & Ht).
    destruct (IH _ Hcs') as (-> & -> & ->).
    rewrite Hk, Ht, Hheap, Hsent. cbn [flat_map length].
    rewrite <- !app_assoc, length_app, (constructs_one _ _ Hc).
    repeat split. lia.
Qed.

Lemma calls_compose_witness :
  let host := current_host (inl (Response 404 "invalid_payload")) in
  let calls := [WebhookNotify (ViaNotify false) 1 "first" None;
                CredentialsGetClient 0;
                WebhookNotify (ViaNotify true) 1 "second" (Some "s")] in
  let w := store_with flag_on in
  forallb (well_targeted w) calls = true ∧
  sent (perform_all host calls w)
    = [] ++ [text_call Blocking hook_url "first";
             text_call Suspending hook_url "second"].
Proof.
  cbn zeta. split; [reflexivity|].
  apply (calls_compose
           (current_host (inl (Response 404 "invalid_payload")))
           [WebhookNotify (ViaNotify false) 1 "first" None;
            CredentialsGetClient 0;
            WebhookNotify (ViaNotify true) 1 "second" (Some "s")]
           (store_with flag_on)).
  reflexivity.
Defined.

(** X6.  A webhook holder stays usable: after any sequence of calls of the
    public operations, on any objects and with any outcomes, [notify] on the
    holder still makes its one call with the given text to the URL stored
    at the start, and [get_client] still returns a handle bound to it. *)
Theorem holder_stays_usable host calls self url p e text subject sync_client
    w :
  heap w !! self = Some (OSlackWebhook url p) →
  let w' := perform_all host calls w in
  sent (snd (run_notify host e self text subject w'))
    = sent w' ++ [text_call (client_variant e) url text] ∧
  ∃ handle w'',
    SlackWebhook_get_client self sync_client w' = (Returned handle, w'') ∧
    heap w'' !! handle
      = Some (handle_of (if default false sync_client then Blocking
                         else Suspending) (get_secret_value url)).
Proof.
  intros Hself. cbn zeta.
  assert (Hself' : heap (perform_all host calls w) !! self
                   = Some (OSlackWebhook url p))
    by (eapply prefix_lookup_Some; eauto using perform_all_grows_only).
  split.
  - by rewrite (run_notify_run _ _ _ _ _ _ _ _ Hself').
  - eexists _, _.
    split; [by apply (SlackWebhook_get_client_run _ url p)|].
    apply alloc_new.
Qed.

Lemma holder_stays_usable_witness :
  let host := current_host (inl (Response 404 "invalid_payload")) in
  let calls := [WebhookNotify (ViaNotify false) 1 "first" None;
                WebhookGetClient 1 (Some true)] in
  let w := store_with flag_on in
  heap w !! 1 = Some (OSlackWebhook hook_url flag_on) ∧
  sent (snd (run_notify host (ViaNotify true) 1 "again" None
               (perform_all host calls w)))
    = sent (perform_all host calls w)
      ++ [text_call Suspending hook_url "again"].
Proof.
  cbn zeta. split; [reflexivity|].
  apply (holder_stays_usable
           (current_host (inl (Response 404 "invalid_payload")))
           [WebhookNotify (ViaNotify false) 1 "first" None;
            WebhookGetClient 1 (Some true)]
           1 hook_url flag_on (ViaNotify true) "again" None None
           (store_with flag_on)).
  reflexivity.
Defined.
